(** * Shallow embedding of [src/backend/rocket/src/main.rs]

    The program is a Rocket 0.5 server: six handlers, each declared with a
    [#[get(...)]] attribute and returning [Result<Json<String>, Status>], and
    a [#[launch]] function [rocket] that mounts each handler at a base path.

    The handlers and [rocket] are embedded as written.  The parts of the
    framework the program relies on are embedded from Rocket's documented
    behaviour:
    - [mount base routes] rebases every route's URI onto [base]
      ([Route::rebase]: base ["/"] leaves the URI unchanged, a route at ["/"]
      is served at the base itself, otherwise the base is prefixed);
    - the router matches a request against a route when the methods are
      equal and the request path equals the route's URI; a route whose URI has
      no query part matches whatever the query is;  the request path is the
      one the router sees (decoded and normalised by the framework);
    - matching routes are tried in order until one does not forward; no
      matching route means a forward with status 404;
    - a [HEAD] request that no route accepts is dispatched again as [GET],
      and the body of every response to a [HEAD] request is stripped;
    - an error status is answered by the default catcher;
    - [Json<T>] responds with [serde_json::to_string] of its contents and
      the content type [application/json]; [Result<R, E>] responds with [R]'s
      response on [Ok] and with [E]'s on [Err]; [Status] responds with an
      error outcome of that status. *)

From Stdlib Require Import String Ascii List Bool Arith Lia.
Import ListNotations.
Open Scope string_scope.

(** ** HTTP data *)

Inductive Method : Type :=
| Get | Put | Post | Delete | Options | Head | Trace | Connect | Patch.

Definition method_eqb (m1 m2 : Method) : bool :=
  match m1, m2 with
  | Get, Get | Put, Put | Post, Post | Delete, Delete | Options, Options
  | Head, Head | Trace, Trace | Connect, Connect | Patch, Patch => true
  | _, _ => false
  end.

(** [rocket::http::Status]: a status code. *)
Record Status : Type := mkStatus { code : nat }.

Definition Status_Ok : Status := mkStatus 200.
Definition Status_NotFound : Status := mkStatus 404.

(** An incoming request: method, path, query and body. *)
Record Request : Type := mkRequest {
  req_method : Method;
  req_path : string;
  req_query : option string;
  req_body : string
}.

(** An outgoing response. *)
Record Response : Type := mkResponse {
  resp_status : Status;
  resp_content_type : option string;
  resp_body : string
}.

(** ** Rust values used by the handlers *)

Inductive Result (T E : Type) : Type :=
| Ok (t : T)
| Err (e : E).
Arguments Ok {T E} t.
Arguments Err {T E} e.

(** [rocket::serde::json::Json<T>], a newtype around [T]. *)
Record Json (T : Type) : Type := mkJson { json_0 : T }.
Arguments mkJson {T} json_0.
Arguments json_0 {T} j.

(** ** JSON encoding of a string ([serde_json::to_string] on a [String]) *)

Definition hex_digit (n : nat) : ascii :=
  if Nat.ltb n 10 then ascii_of_nat (48 + n) else ascii_of_nat (87 + n).

Definition quote_char : ascii := ascii_of_nat 34.
Definition backslash : ascii := ascii_of_nat 92.

(** A backslash followed by [c]. *)
Definition escaped (c : ascii) : string := String backslash (String c EmptyString).

(** The escape of one character, as serde_json writes it. *)
Definition json_escape_char (c : ascii) : string :=
  let n := nat_of_ascii c in
  if Nat.eqb n 34 then escaped quote_char
  else if Nat.eqb n 92 then escaped backslash
  else if Nat.eqb n 8 then escaped "b"%char
  else if Nat.eqb n 12 then escaped "f"%char
  else if Nat.eqb n 10 then escaped "n"%char
  else if Nat.eqb n 13 then escaped "r"%char
  else if Nat.eqb n 9 then escaped "t"%char
  else if Nat.ltb n 32 then
    String backslash (String "u"%char (String "0"%char (String "0"%char
      (String (hex_digit (n / 16)) (String (hex_digit (n mod 16)) EmptyString)))))
  else String c EmptyString.

Fixpoint json_escape (s : string) : string :=
  match s with
  | EmptyString => EmptyString
  | String c rest => json_escape_char c ++ json_escape rest
  end.

Definition json_to_string (s : string) : string :=
  String quote_char (json_escape s ++ String quote_char EmptyString).

(** ** Responders *)

(** Outcome of running a route's handler. *)
Inductive Outcome : Type :=
| Success (r : Response)
| Error (s : Status)
| Forward (s : Status).

Definition json_content_type : string := "application/json".

(** [impl Responder for Json<String>]. *)
Definition respond_json (j : Json string) : Response :=
  mkResponse Status_Ok (Some json_content_type) (json_to_string (json_0 j)).

(** [impl Responder for Result<Json<String>, Status>]: [Ok] uses the
    [Json] responder, [Err(status)] is an error outcome of that status. *)
Definition respond_result (r : Result (Json string) Status) : Outcome :=
  match r with
  | Ok j => Success (respond_json j)
  | Err s => Error s
  end.

(** Rocket's default catcher (HTML variant). *)
Definition default_catcher (s : Status) : Response :=
  mkResponse s (Some "text/html; charset=utf-8")
    ("<!DOCTYPE html><html><head><title>" ++ "error" ++ "</title></head></html>").

(** ** Routes and the server *)

(** A handler of this program takes no argument from the request. *)
Definition Handler : Type := unit -> Result (Json string) Status.

(** [rocket::Route]: method, URI, name of the handler and the handler. *)
Record Route : Type := mkRoute {
  route_method : Method;
  route_uri : string;
  route_name : string;
  route_handler : Handler
}.

(** [Route::rebase], used by [mount]. *)
Definition rebase (base uri : string) : string :=
  if String.eqb base "/" then uri
  else if String.eqb uri "/" then base
  else base ++ uri.

Definition rebase_route (base : string) (r : Route) : Route :=
  mkRoute (route_method r) (rebase base (route_uri r)) (route_name r) (route_handler r).

(** The [Rocket<Build>] value: the routes mounted so far, in order. *)
Record Rocket : Type := mkRocket { routes : list Route }.

(** [rocket::build()]. *)
Definition build : Rocket := mkRocket [].

(** [Rocket::mount(base, routes)]. *)
Definition mount (base : string) (rs : list Route) (r : Rocket) : Rocket :=
  mkRocket (routes r ++ map (rebase_route base) rs).

(** ** The handlers of [main.rs] *)

Definition hello : Handler := fun _ =>
  Ok (mkJson "Rocket server is running").

Definition todoHeader : Handler := fun _ =>
  Ok (mkJson "Todo is working").

Definition todoSchool : Handler := fun _ =>
  Ok (mkJson "school todo sample").

Definition todoWatch : Handler := fun _ =>
  Ok (mkJson "to watch sample").

Definition todoRead : Handler := fun _ =>
  Ok (mkJson "to read sample").

Definition todoMake : Handler := fun _ =>
  Ok (mkJson "to make sample").

(** The routes generated by the [#[get(...)]] attributes. *)
Definition hello_route : Route := mkRoute Get "/" "hello" hello.
Definition todoHeader_route : Route := mkRoute Get "/todo" "todoHeader" todoHeader.
Definition todoSchool_route : Route := mkRoute Get "/todo/school" "todoSchool" todoSchool.
Definition todoWatch_route : Route := mkRoute Get "/todo/watch" "todoWatch" todoWatch.
Definition todoRead_route : Route := mkRoute Get "/todo/read" "todoRead" todoRead.
Definition todoMake_route : Route := mkRoute Get "/todo/make" "todoMake" todoMake.

(** [#[launch] fn rocket()]: the chain of [mount] calls, in source order. *)
Definition rocket (_ : unit) : Rocket :=
  mount "/todo/make" [todoMake_route]
  (mount "/todo/read" [todoRead_route]
  (mount "/todo/watch" [todoWatch_route]
  (mount "/todo/school" [todoSchool_route]
  (mount "/todo" [todoHeader_route]
  (mount "/" [hello_route] build))))).

(** ** Request dispatch *)

(** The router's match of a route against a request: same method, same
    path; the request's query and body are not looked at by routes without
    query or data parameters, which is every route of this program. *)
Definition route_matches (r : Route) (req : Request) : bool :=
  method_eqb (route_method r) (req_method req) && String.eqb (route_uri r) (req_path req).

Definition matching_routes (rk : Rocket) (req : Request) : list Route :=
  filter (fun r => route_matches r req) (routes rk).

(** Run the handler of a matched route. *)
Definition run_route (r : Route) : Outcome :=
  respond_result (route_handler r tt).

(** [Rocket::route]: try the matching routes in order until one does not
    forward; forward with 404 when none is left. *)
Fixpoint try_routes (rs : list Route) : Outcome :=
  match rs with
  | [] => Forward Status_NotFound
  | r :: rest =>
      match run_route r with
      | Forward _ => try_routes rest
      | o => o
      end
  end.

Definition route (rk : Rocket) (req : Request) : Outcome :=
  try_routes (matching_routes rk req).

Definition with_method (m : Method) (req : Request) : Request :=
  mkRequest m (req_path req) (req_query req) (req_body req).

Definition strip_body (resp : Response) : Response :=
  mkResponse (resp_status resp) (resp_content_type resp) "".

(** [Rocket::dispatch]: route the request, retry a forwarded [HEAD] request
    as [GET], answer errors and forwards with the catcher, and strip the body
    of the response to a [HEAD] request.  The request is the one Rocket has
    already parsed and preprocessed: its method is the one the router sees
    (after the [_method] override of POST forms); requests Rocket cannot
    parse are answered with 400 before this step and are not modelled. *)
Definition dispatch (rk : Rocket) (req : Request) : Response :=
  let resp :=
    match route rk req with
    | Success r => r
    | Forward s =>
        if method_eqb (req_method req) Head then
          match route rk (with_method Get req) with
          | Success r => r
          | Error s' | Forward s' => default_catcher s'
          end
        else default_catcher s
    | Error s => default_catcher s
    end in
  if method_eqb (req_method req) Head then strip_body resp else resp.

(** Serving a sequence of requests; the server value is threaded through
    and handed back with every response. *)
Fixpoint serve_all (rk : Rocket) (reqs : list Request) : Rocket * list Response :=
  match reqs with
  | [] => (rk, [])
  | req :: rest =>
      let resp := dispatch rk req in
      let '(rk', resps) := serve_all rk rest in
      (rk', resp :: resps)
  end.

(** A GET request with the given path, no query and an empty body. *)
Definition get_request (path : string) : Request := mkRequest Get path None "".

Example rocket_root : dispatch (rocket tt) (get_request "/") =
  mkResponse Status_Ok (Some "application/json")
    (String quote_char ("Rocket server is running" ++ String quote_char EmptyString)).
Proof. reflexivity. Qed.

Example rocket_todo_missing : resp_status (dispatch (rocket tt) (get_request "/todo")) = Status_NotFound.
Proof. reflexivity. Qed.

(** ** Facts about the route table *)

Definition rocket_routes : list Route := routes (rocket tt).

Lemma rocket_routes_unfold :
  rocket_routes =
  [ rebase_route "/" hello_route;
    rebase_route "/todo" todoHeader_route;
    rebase_route "/todo/school" todoSchool_route;
    rebase_route "/todo/watch" todoWatch_route;
    rebase_route "/todo/read" todoRead_route;
    rebase_route "/todo/make" todoMake_route ].
Proof. reflexivity. Qed.

Lemma rocket_routes_ok :
  forall r, In r rocket_routes -> forall u, exists s, route_handler r u = Ok (mkJson s).
Proof.
  intros r Hin u; rewrite rocket_routes_unfold in Hin.
  simpl in Hin; repeat destruct Hin as [<- | Hin];
    try (eexists; reflexivity); contradiction.
Qed.

Lemma try_routes_ok (rs : list Route) :
  (forall r, In r rs -> exists s, route_handler r tt = Ok (mkJson s)) ->
  try_routes rs = Forward Status_NotFound \/
  exists s, rs <> [] /\ try_routes rs = Success (respond_json (mkJson s)).
Proof.
  destruct rs as [| r rest]; intros Hok; [left; reflexivity|].
  right; destruct (Hok r (or_introl eq_refl)) as [s Hs].
  exists s; split; [discriminate|].
  simpl; unfold run_route; rewrite Hs; reflexivity.
Qed.

Lemma matching_routes_incl (rk : Rocket) (req : Request) :
  forall r, In r (matching_routes rk req) -> In r (routes rk) /\ route_matches r req = true.
Proof. intros r Hin; unfold matching_routes in Hin; apply filter_In in Hin; exact Hin. Qed.

Lemma route_rocket (req : Request) :
  route (rocket tt) req = Forward Status_NotFound /\ matching_routes (rocket tt) req = [] \/
  exists s, matching_routes (rocket tt) req <> [] /\
            route (rocket tt) req = Success (respond_json (mkJson s)).
Proof.
  unfold route.
  destruct (try_routes_ok (matching_routes (rocket tt) req)) as [H | H].
  - intros r Hin; apply matching_routes_incl in Hin; destruct Hin as [Hin _].
    exact (rocket_routes_ok r Hin tt).
  - destruct (matching_routes (rocket tt) req) eqn:E.
    + left; split; [exact H | reflexivity].
    + simpl in H; destruct (run_route r) eqn:Er.
      * discriminate H.
      * discriminate H.
      * exfalso.
        assert (Hin : In r (routes (rocket tt))).
        { apply (matching_routes_incl (rocket tt) req); rewrite E; left; reflexivity. }
        destruct (rocket_routes_ok r Hin tt) as [s' Hs'].
        unfold run_route in Er; rewrite Hs' in Er; discriminate Er.
  - right; exact H.
Qed.

Lemma method_eqb_true (m1 m2 : Method) : method_eqb m1 m2 = true -> m1 = m2.
Proof. destruct m1, m2; simpl; congruence. Qed.

Lemma rocket_routes_get : forall r, In r rocket_routes -> route_method r = Get.
Proof.
  intros r Hin; rewrite rocket_routes_unfold in Hin.
  simpl in Hin; repeat destruct Hin as [<- | Hin]; try reflexivity; contradiction.
Qed.

Lemma matching_rocket_get (req : Request) :
  matching_routes (rocket tt) req <> [] -> req_method req = Get.
Proof.
  intros Hne; destruct (matching_routes (rocket tt) req) as [| r rest] eqn:E;
    [contradiction|].
  assert (Hin : In r (matching_routes (rocket tt) req)) by (rewrite E; left; reflexivity).
  apply matching_routes_incl in Hin; destruct Hin as [Hin Hm].
  unfold route_matches in Hm; apply andb_prop in Hm; destruct Hm as [Hm _].
  apply method_eqb_true in Hm; rewrite <- Hm; exact (rocket_routes_get r Hin).
Qed.

(** [route] looks only at the request's method and path. *)
Lemma route_method_path (rk : Rocket) (req1 req2 : Request) :
  req_method req1 = req_method req2 -> req_path req1 = req_path req2 ->
  route rk req1 = route rk req2.
Proof.
  intros Hm Hp; unfold route, matching_routes, route_matches.
  rewrite Hm, Hp; reflexivity.
Qed.

Lemma serve_all_map (rk : Rocket) (reqs : list Request) :
  serve_all rk reqs = (rk, map (dispatch rk) reqs).
Proof.
  induction reqs as [| req rest IH]; simpl; [reflexivity|].
  rewrite IH; reflexivity.
Qed.

(** [dispatch] looks only at the request's method and path. *)
Lemma dispatch_method_path (rk : Rocket) (req1 req2 : Request) :
  req_method req1 = req_method req2 -> req_path req1 = req_path req2 ->
  dispatch rk req1 = dispatch rk req2.
Proof.
  intros Hm Hp; unfold dispatch.
  rewrite (route_method_path rk req1 req2 Hm Hp).
  rewrite (route_method_path rk (with_method Get req1) (with_method Get req2) eq_refl Hp).
  rewrite Hm; reflexivity.
Qed.

Lemma filter_all_false {A : Type} (f : A -> bool) (l : list A) :
  (forall x, In x l -> f x = false) -> filter f l = [].
Proof.
  induction l as [| x l IH]; intros H; simpl; [reflexivity|].
  rewrite (H x (or_introl eq_refl)); apply IH.
  intros y Hy; exact (H y (or_intror Hy)).
Qed.

Lemma matching_at_most_one (rs : list Route) (req : Request) :
  NoDup (map route_uri rs) ->
  length (filter (fun r => route_matches r req) rs) <= 1.
Proof.
  induction rs as [| r rest IH]; intros Hnd; simpl; [lia|].
  inversion Hnd as [| u us Hnotin Hnd' Heq]; subst.
  destruct (route_matches r req) eqn:Er.
  - rewrite filter_all_false; [simpl; lia|].
    intros r' Hin'; unfold route_matches in *.
    apply andb_prop in Er; destruct Er as [_ Er]; apply String.eqb_eq in Er.
    destruct (String.eqb (route_uri r') (req_path req)) eqn:E'.
    + apply String.eqb_eq in E'; exfalso; apply Hnotin.
      rewrite Er, <- E'; apply in_map; exact Hin'.
    + apply andb_false_r.
  - apply IH; exact Hnd'.
Qed.

(** ** Claims *)

(** C1 (code_bug): of the six route table entries only [GET /] is served;
    a GET request to [/todo], [/todo/school], [/todo/watch], [/todo/read] or
    [/todo/make] gets status 404, because each of those handlers is mounted
    at a base equal to its own attribute path. *)
Theorem C1_todo_paths_not_found :
  Forall (fun p => resp_status (dispatch (rocket tt) (get_request p)) = Status_NotFound)
    ["/todo"; "/todo/school"; "/todo/watch"; "/todo/read"; "/todo/make"].
Proof. repeat constructor. Qed.

(** C2: a GET request with path ["/"], whatever its query and body, gets
    status 200, content type [application/json] and the body
    ["Rocket server is running"] in double quotes. *)
Theorem C2_get_root (q : option string) (b : string) :
  dispatch (rocket tt) (mkRequest Get "/" q b) =
  mkResponse Status_Ok (Some json_content_type)
    (String quote_char ("Rocket server is running" ++ String quote_char EmptyString)).
Proof. reflexivity. Qed.

(** C3: a GET request whose path is none of the effective route URIs gets
    status 404 from the default catcher. *)
Theorem C3_unmatched_get_not_found (req : Request) :
  req_method req = Get ->
  existsb (String.eqb (req_path req)) (map route_uri rocket_routes) = false ->
  dispatch (rocket tt) req = default_catcher Status_NotFound.
Proof.
  intros Hm Hp.
  assert (Hnil : matching_routes (rocket tt) req = []).
  { unfold matching_routes; apply filter_all_false.
    intros r Hin; unfold route_matches.
    destruct (String.eqb (route_uri r) (req_path req)) eqn:E; [|apply andb_false_r].
    exfalso; apply String.eqb_eq in E.
    assert (Hex : existsb (String.eqb (req_path req)) (map route_uri rocket_routes) = true).
    { apply existsb_exists; exists (route_uri r); split.
      - apply in_map; exact Hin.
      - apply String.eqb_eq; symmetry; exact E. }
    rewrite Hp in Hex; discriminate Hex. }
  unfold dispatch, route; rewrite Hnil, Hm; reflexivity.
Qed.

Lemma C3_witness :
  req_method (get_request "/todo") = Get /\
  existsb (String.eqb (req_path (get_request "/todo"))) (map route_uri rocket_routes) = false /\
  dispatch (rocket tt) (get_request "/todo") = default_catcher Status_NotFound.
Proof.
  split; [reflexivity|]; split; [reflexivity|].
  apply C3_unmatched_get_not_found; reflexivity.
Defined.

(** C4: every handler of the program returns [Ok] on every call, and the
    router never produces an error outcome for any request. *)
Theorem C4_handlers_never_err :
  Forall (fun h : Handler => forall u, exists s, h u = Ok (mkJson s))
    [hello; todoHeader; todoSchool; todoWatch; todoRead; todoMake] /\
  forall req s, route (rocket tt) req <> Error s.
Proof.
  split.
  - repeat constructor; intros u; eexists; reflexivity.
  - intros req s; destruct (route_rocket req) as [[Hr _] | [s' [_ Hr]]];
      rewrite Hr; discriminate.
Qed.

(** C5: every handler of the route table gives the same result on every
    call; serving any sequence of requests leaves the server value unchanged
    and answers each request as if it were alone, so any two requests of the
    sequence that reach the same route (same method and path, at any
    positions, whatever their queries and bodies) get identical responses. *)
Theorem C5_serve_stateless (reqs : list Request) (i j : nat) (ri rj : Request) :
  (forall r, In r rocket_routes -> forall u1 u2, route_handler r u1 = route_handler r u2) /\
  (nth_error reqs i = Some ri -> nth_error reqs j = Some rj ->
   req_method ri = req_method rj -> req_path ri = req_path rj ->
   let '(rk', resps) := serve_all (rocket tt) reqs in
   rk' = rocket tt /\
   nth_error resps i = Some (dispatch (rocket tt) ri) /\
   nth_error resps i = nth_error resps j).
Proof.
  split.
  - intros r _ [] []; reflexivity.
  - intros Hi Hj Hm Hp; rewrite serve_all_map; split; [reflexivity|].
    rewrite !nth_error_map, Hi, Hj; simpl; split; [reflexivity|].
    rewrite (dispatch_method_path (rocket tt) ri rj Hm Hp); reflexivity.
Qed.

Lemma C5_witness :
  let reqs := [get_request "/todo/read/todo/read"; get_request "/";
               mkRequest Get "/todo/read/todo/read" (Some "x=1") "body"] in
  let '(rk', resps) := serve_all (rocket tt) reqs in
  rk' = rocket tt /\
  nth_error resps 0 = Some (dispatch (rocket tt) (get_request "/todo/read/todo/read")) /\
  nth_error resps 0 = nth_error resps 2.
Proof.
  apply (proj2 (C5_serve_stateless
    [get_request "/todo/read/todo/read"; get_request "/";
     mkRequest Get "/todo/read/todo/read" (Some "x=1") "body"]
    0 2 (get_request "/todo/read/todo/read")
    (mkRequest Get "/todo/read/todo/read" (Some "x=1") "body")));
    reflexivity.
Defined.

(** C6: the response depends on the request's method and path only: two
    requests with the same method and path, whatever their queries and
    bodies, get the same response. *)
Theorem C6_response_ignores_query_body (req1 req2 : Request) :
  req_method req1 = req_method req2 -> req_path req1 = req_path req2 ->
  dispatch (rocket tt) req1 = dispatch (rocket tt) req2.
Proof.
  intros Hm Hp; unfold dispatch.
  rewrite (route_method_path (rocket tt) req1 req2 Hm Hp).
  rewrite (route_method_path (rocket tt) (with_method Get req1) (with_method Get req2)
             eq_refl Hp).
  rewrite Hm; reflexivity.
Qed.

Lemma C6_witness :
  dispatch (rocket tt) (mkRequest Get "/" (Some "a=1") "x") =
  dispatch (rocket tt) (mkRequest Get "/" None "").
Proof. apply C6_response_ignores_query_body; reflexivity. Defined.

(** C7 (as stated, refuted): a HEAD request to [/] is answered by the GET
    route with status 200 and its body stripped, so not every status-200
    response carries a quoted JSON string body. *)
Lemma C7_head_root_counterexample :
  ~ (forall req, resp_status (dispatch (rocket tt) req) = Status_Ok ->
       resp_content_type (dispatch (rocket tt) req) = Some json_content_type /\
       exists s, resp_body (dispatch (rocket tt) req) = json_to_string s).
Proof.
  intros H; destruct (H (mkRequest Head "/" None "") eq_refl) as [_ [s Hs]].
  assert (E : resp_body (dispatch (rocket tt) (mkRequest Head "/" None "")) = "")
    by reflexivity.
  rewrite E in Hs; unfold json_to_string in Hs; discriminate Hs.
Qed.

(** C7 (amended): every status-200 response has content type
    [application/json]; for a GET request its body is a JSON string (the
    text between double quotes), for a HEAD request (served by the GET
    route) its body is empty. *)
Theorem C7_ok_response_json_string (req : Request) :
  resp_status (dispatch (rocket tt) req) = Status_Ok ->
  resp_content_type (dispatch (rocket tt) req) = Some json_content_type /\
  (req_method req = Get /\ (exists s, resp_body (dispatch (rocket tt) req) = json_to_string s) \/
   req_method req = Head /\ resp_body (dispatch (rocket tt) req) = "").
Proof.
  unfold dispatch.
  destruct (route_rocket req) as [[Hr _] | [s [Hne Hr]]]; rewrite Hr.
  - destruct (method_eqb (req_method req) Head) eqn:Eh.
    + apply method_eqb_true in Eh.
      destruct (route_rocket (with_method Get req)) as [[Hr2 _] | [s2 [_ Hr2]]];
        rewrite Hr2; simpl.
      * discriminate.
      * intros _; split; [reflexivity|]; right; split; [exact Eh | reflexivity].
    + simpl; discriminate.
  - rewrite (matching_rocket_get req Hne); simpl.
    intros _; split; [reflexivity|]; left; split; [reflexivity|].
    exists s; reflexivity.
Qed.

Lemma C7_witness :
  resp_status (dispatch (rocket tt) (get_request "/")) = Status_Ok /\
  resp_content_type (dispatch (rocket tt) (get_request "/")) = Some json_content_type /\
  (req_method (get_request "/") = Get /\
     (exists s, resp_body (dispatch (rocket tt) (get_request "/")) = json_to_string s) \/
   req_method (get_request "/") = Head /\ resp_body (dispatch (rocket tt) (get_request "/")) = "").
Proof.
  split; [reflexivity|].
  apply C7_ok_response_json_string; reflexivity.
Defined.

(** C8: every handler but [hello] is served at its mount base followed by
    its attribute path; [hello] is served at [/]. *)
Theorem C8_effective_uris :
  map (fun r => (route_name r, route_uri r)) rocket_routes =
  [ ("hello", "/");
    ("todoHeader", "/todo" ++ route_uri todoHeader_route);
    ("todoSchool", "/todo/school" ++ route_uri todoSchool_route);
    ("todoWatch", "/todo/watch" ++ route_uri todoWatch_route);
    ("todoRead", "/todo/read" ++ route_uri todoRead_route);
    ("todoMake", "/todo/make" ++ route_uri todoMake_route) ] /\
  map route_uri rocket_routes =
  [ "/"; "/todo/todo"; "/todo/school/todo/school"; "/todo/watch/todo/watch";
    "/todo/read/todo/read"; "/todo/make/todo/make" ].
Proof. split; reflexivity. Qed.

(** C9: every registered route has method GET, and a request with any
    other method matches no registered route. *)
Theorem C9_only_get :
  (forall r, In r rocket_routes -> route_method r = Get) /\
  (forall req, req_method req <> Get -> matching_routes (rocket tt) req = []).
Proof.
  split; [exact rocket_routes_get|].
  intros req Hm; destruct (matching_routes (rocket tt) req) as [| r rest] eqn:E;
    [reflexivity|].
  exfalso; apply Hm, matching_rocket_get; rewrite E; discriminate.
Qed.

Lemma C9_witness :
  req_method (mkRequest Post "/" None "") <> Get /\
  matching_routes (rocket tt) (mkRequest Post "/" None "") = [].
Proof.
  split; [discriminate|].
  apply (proj2 C9_only_get); discriminate.
Defined.

(** C10: the effective (method, URI) pairs of the route table are pairwise
    distinct, so are the URIs, and at most one route matches any request. *)
Theorem C10_routes_unambiguous :
  NoDup (map (fun r => (route_method r, route_uri r)) rocket_routes) /\
  NoDup (map route_uri rocket_routes) /\
  forall req, length (matching_routes (rocket tt) req) <= 1.
Proof.
  assert (Hnd : NoDup (map route_uri rocket_routes)).
  { simpl; repeat constructor; simpl; intuition discriminate. }
  split; [simpl; repeat constructor; simpl; intuition discriminate|].
  split; [exact Hnd|].
  intros req; apply matching_at_most_one; exact Hnd.
Qed.

(** ** Further properties of the served route table *)

Lemma matching_nil_not_served (req : Request) :
  ~ In (req_path req) (map route_uri rocket_routes) ->
  matching_routes (rocket tt) req = [].
Proof.
  intros Hn; unfold matching_routes; apply filter_all_false.
  intros r Hin; unfold route_matches.
  destruct (String.eqb (route_uri r) (req_path req)) eqn:E; [|apply andb_false_r].
  exfalso; apply String.eqb_eq in E; apply Hn; rewrite <- E; apply in_map; exact Hin.
Qed.

Lemma matching_served_get (req : Request) :
  req_method req = Get -> In (req_path req) (map route_uri rocket_routes) ->
  matching_routes (rocket tt) req <> [].
Proof.
  intros Hm Hin; apply in_map_iff in Hin; destruct Hin as [r [Hu Hr]].
  assert (Hmatch : In r (matching_routes (rocket tt) req)).
  { unfold matching_routes; apply filter_In; split; [exact Hr|].
    unfold route_matches; rewrite (rocket_routes_get r Hr), Hm, Hu, String.eqb_refl.
    reflexivity. }
  destruct (matching_routes (rocket tt) req); [contradiction | discriminate].
Qed.

Lemma dispatch_not_found_unmatched (req : Request) :
  req_method req <> Head -> matching_routes (rocket tt) req = [] ->
  dispatch (rocket tt) req = default_catcher Status_NotFound.
Proof.
  intros Hh Hnil; unfold dispatch, route; rewrite Hnil; simpl.
  destruct (method_eqb (req_method req) Head) eqn:E; [|reflexivity].
  apply method_eqb_true in E; contradiction.
Qed.

(** The paths actually served and the text each one answers with. *)
Definition served_table : list (string * string) :=
  [ ("/", "Rocket server is running");
    ("/todo/todo", "Todo is working");
    ("/todo/school/todo/school", "school todo sample");
    ("/todo/watch/todo/watch", "to watch sample");
    ("/todo/read/todo/read", "to read sample");
    ("/todo/make/todo/make", "to make sample") ].

(** The served paths are exactly the route table's effective URIs, and a GET
    request to each of them, whatever its query and body, is answered with
    status 200, content type [application/json] and the handler's text
    between double quotes, unescaped. *)
Theorem served_table_responses (q : option string) (b : string) :
  map fst served_table = map route_uri rocket_routes /\
  Forall (fun '(p, t) =>
    dispatch (rocket tt) (mkRequest Get p q b) =
    mkResponse Status_Ok (Some json_content_type)
      (String quote_char (t ++ String quote_char EmptyString))) served_table.
Proof. split; [reflexivity | repeat constructor]. Qed.

(** A GET request is answered with status 200 exactly when its path is one
    of the effective route URIs. *)
Theorem get_ok_iff_served (req : Request) :
  req_method req = Get ->
  (resp_status (dispatch (rocket tt) req) = Status_Ok <->
   In (req_path req) (map route_uri rocket_routes)).
Proof.
  intros Hm; split.
  - intros Hok.
    destruct (in_dec string_dec (req_path req) (map route_uri rocket_routes)) as [Hin|Hn];
      [exact Hin|].
    rewrite (dispatch_not_found_unmatched req) in Hok;
      [discriminate Hok | rewrite Hm; discriminate | exact (matching_nil_not_served req Hn)].
  - intros Hin.
    destruct (route_rocket req) as [[_ Hnil] | [s [_ Hr]]].
    + exfalso; exact (matching_served_get req Hm Hin Hnil).
    + unfold dispatch; rewrite Hr, Hm; reflexivity.
Qed.

Lemma get_ok_iff_served_witness :
  req_method (get_request "/todo/todo") = Get /\
  (resp_status (dispatch (rocket tt) (get_request "/todo/todo")) = Status_Ok <->
   In (req_path (get_request "/todo/todo")) (map route_uri rocket_routes)).
Proof. split; [reflexivity | apply get_ok_iff_served; reflexivity]. Defined.

(** A HEAD request gets the response the same request would get as GET,
    with the body removed: same status, same content type, empty body. *)
Theorem head_is_get_without_body (req : Request) :
  req_method req = Head ->
  dispatch (rocket tt) req = strip_body (dispatch (rocket tt) (with_method Get req)).
Proof.
  intros Hh.
  assert (Hnil : matching_routes (rocket tt) req = []).
  { destruct (matching_routes (rocket tt) req) eqn:E; [reflexivity|].
    exfalso; assert (Hg : req_method req = Get) by (apply matching_rocket_get; rewrite E;
      discriminate).
    rewrite Hh in Hg; discriminate Hg. }
  unfold dispatch at 1, route at 1; rewrite Hnil, Hh; simpl.
  unfold dispatch; simpl.
  destruct (route (rocket tt) (with_method Get req)); reflexivity.
Qed.

Lemma head_is_get_without_body_witness :
  req_method (mkRequest Head "/" None "") = Head /\
  dispatch (rocket tt) (mkRequest Head "/" None "") =
  strip_body (dispatch (rocket tt) (with_method Get (mkRequest Head "/" None ""))).
Proof. split; [reflexivity | apply head_is_get_without_body; reflexivity]. Defined.

(** A character serde_json copies unchanged: not a control character, not
    a double quote, not a backslash. *)
Definition plain_char (c : ascii) : bool :=
  let n := nat_of_ascii c in
  Nat.leb 32 n && negb (Nat.eqb n 34) && negb (Nat.eqb n 92).

(** The [Json] responder writes a string made of plain characters verbatim
    between double quotes. *)
Theorem json_to_string_plain (s : string) :
  forallb plain_char (list_ascii_of_string s) = true ->
  json_to_string s = String quote_char (s ++ String quote_char EmptyString).
Proof.
  intros H; unfold json_to_string; f_equal; f_equal.
  induction s as [| c rest IH]; [reflexivity|].
  simpl in H; apply andb_prop in H; destruct H as [Hc Hrest].
  simpl; rewrite (IH Hrest).
  unfold plain_char in Hc; apply andb_prop in Hc; destruct Hc as [Hc H92].
  apply andb_prop in Hc; destruct Hc as [H32 H34].
  apply negb_true_iff in H34, H92; apply Nat.leb_le in H32.
  unfold json_escape_char; rewrite H34, H92.
  destruct (Nat.eqb (nat_of_ascii c) 8) eqn:E8; [apply Nat.eqb_eq in E8; lia|].
  destruct (Nat.eqb (nat_of_ascii c) 12) eqn:E12; [apply Nat.eqb_eq in E12; lia|].
  destruct (Nat.eqb (nat_of_ascii c) 10) eqn:E10; [apply Nat.eqb_eq in E10; lia|].
  destruct (Nat.eqb (nat_of_ascii c) 13) eqn:E13; [apply Nat.eqb_eq in E13; lia|].
  destruct (Nat.eqb (nat_of_ascii c) 9) eqn:E9; [apply Nat.eqb_eq in E9; lia|].
  destruct (Nat.ltb (nat_of_ascii c) 32) eqn:E32; [apply Nat.ltb_lt in E32; lia|].
  reflexivity.
Qed.

Lemma json_to_string_plain_witness :
  forallb plain_char (list_ascii_of_string "to read sample") = true /\
  json_to_string "to read sample" =
  String quote_char ("to read sample" ++ String quote_char EmptyString).
Proof. split; [reflexivity | apply json_to_string_plain; reflexivity]. Defined.
